(** * A shallow embedding of [main.py]: the CrewAI research-and-writing script

    The script builds two agent configurations and two task descriptions,
    hands them to the framework's sequential executor and reports on the
    outcome.

    - A Python [str] is a sequence of code points.
    - The objects of the framework ([Agent], [Task], [Crew], the tools) are
      records of the keyword arguments the script passes; their
      constructors neither fail nor act on the world.
    - The process environment, standard input, the file system and what
      the script writes are a [World], threaded through a monad of state
      and exceptions.  Writing to standard output does not fail.
    - [crew.kickoff()] belongs to the framework: it is a parameter of
      [main], and every property of [main] holds for any executor. *)

From Stdlib Require Import NArith List String Ascii Lia.
From stdpp Require Import gmap strings list pretty.

Set Warnings "-register-all".

(** ** Python strings *)

(** A [str] is a sequence of Unicode code points. *)
Abbreviation pystr := (list N) (only parsing).

(** The code points of an ASCII literal of the source. *)
Definition lit (s : string) : pystr := N_of_ascii <$> list_ascii_of_string s.
Arguments lit _%_string.

(** The escape [\n]. *)
Definition nl : pystr := [10%N].

(** [s * n] on strings. *)
Definition str_mul (s : pystr) (n : nat) : pystr := mjoin (replicate n s).

(** [str(n)] for a non-negative integer, as an f-string field renders it. *)
Definition str_of_nat (n : nat) : pystr := lit (pretty n).

(** Truth value of a string: non-empty. *)
Definition truthy (s : pystr) : bool :=
  match s with [] => false | _ :: _ => true end.

(** Truth value of what [os.getenv] returns: [None] and [''] are false. *)
Definition truthy_opt (o : option pystr) : bool :=
  match o with None => false | Some s => truthy s end.

(** The characters [str.strip()] removes when called without argument:
    those for which [str.isspace] holds. *)
Definition isspace (c : N) : bool :=
  (N.leb 9 c && N.leb c 13) || (N.leb 28 c && N.leb c 32)
  || N.eqb c 133 || N.eqb c 160 || N.eqb c 5760
  || (N.leb 8192 c && N.leb c 8202)
  || N.eqb c 8232 || N.eqb c 8233 || N.eqb c 8239 || N.eqb c 8287
  || N.eqb c 12288.

Fixpoint lstrip (s : pystr) : pystr :=
  match s with
  | [] => []
  | c :: r => if isspace c then lstrip r else s
  end.

Definition rstrip (s : pystr) : pystr := rev (lstrip (rev s)).

Definition strip (s : pystr) : pystr := rstrip (lstrip s).

(** [t in s] for strings: [t] occurs in [s] as a contiguous run. *)
Definition substring (t s : pystr) : Prop :=
  exists pre post : pystr, s = pre ++ t ++ post.

(** ** The framework's objects, as the keyword arguments they are built from *)

Inductive Tool := SerperDevTool | FileWriterTool.

Record Agent := mkAgent {
  role : pystr;
  goal : pystr;
  backstory : pystr;
  tools : list Tool;
  verbose : bool;
  allow_delegation : bool
}.

(** [context] is [None] where the keyword is not passed. *)
Inductive Task := mkTask {
  description : pystr;
  expected_output : pystr;
  agent : Agent;
  context : option (list Task);
  async_execution : bool
}.

Inductive Process := sequential | hierarchical.

Record Crew := mkCrew {
  agents : list Agent;
  tasks : list Task;
  process : Process;
  crew_verbose : bool
}.

(** ** The world the script runs in *)

(** An exception object: whether its class derives from [Exception] (as
    opposed to [BaseException] only, like [KeyboardInterrupt] and
    [SystemExit]), and what [str(exc)] gives. *)
Record PyExc := mkExc {
  exc_is_Exception : bool;
  exc_str : pystr
}.

(** What reading a path as UTF-8 text gives: the decoded text, or the
    exception [open] or [read] raises (a directory, bytes that do not
    decode, no permission). *)
Inductive Node :=
| TextFile (contents : pystr)
| Unreadable (e : PyExc).

(** What the script does that can be observed, in order: a [print] call
    with the text of its line, the prompt [input] writes, and a call of
    [crew.kickoff()] (the framework's own output happens inside it). *)
Inductive Event :=
| Print (s : pystr)
| Prompt (s : pystr)
| Kickoff (c : Crew).

Record World := mkWorld {
  environ : gmap pystr pystr;
  stdin : list pystr;
  files : gmap pystr Node;
  trace : list Event
}.

Definition emit (ev : Event) (w : World) : World :=
  mkWorld (environ w) (stdin w) (files w) (trace w ++ [ev]).

Definition set_stdin (l : list pystr) (w : World) : World :=
  mkWorld (environ w) l (files w) (trace w).

Definition set_files (fs : gmap pystr Node) (w : World) : World :=
  mkWorld (environ w) (stdin w) fs (trace w).

(** ** State and exceptions *)

Inductive Outcome (A : Type) :=
| Returns (a : A)
| Raises (e : PyExc).
Arguments Returns {A} a.
Arguments Raises {A} e.

Definition M (A : Type) : Type := World -> Outcome A * World.

Definition ret {A} (a : A) : M A := fun w => (Returns a, w).

Definition raise {A} (e : PyExc) : M A := fun w => (Raises e, w).

Definition bind {A B} (m : M A) (k : A -> M B) : M B :=
  fun w =>
    match m w with
    | (Returns a, w') => k a w'
    | (Raises e, w') => (Raises e, w')
    end.

Declare Scope py_scope.
Delimit Scope py_scope with py.
Notation "x <- m ;; k" := (bind m (fun x => k))
  (at level 100, m at next level, right associativity) : py_scope.
Notation "m ;; k" := (bind m (fun _ => k))
  (at level 100, right associativity) : py_scope.
Open Scope py_scope.

(** [try: body / except Exception as exc:]: an exception whose class derives
    from [Exception] is handed to the handler, any other one propagates. *)
Definition try_except_Exception {A} (body : M A) : M (A + PyExc) :=
  fun w =>
    match body w with
    | (Returns a, w') => (Returns (inl a), w')
    | (Raises e, w') =>
        if exc_is_Exception e then (Returns (inr e), w') else (Raises e, w')
    end.

(** ** The library calls the script makes *)

Definition print (s : pystr) : M unit := fun w => (Returns tt, emit (Print s) w).

Definition getenv (name : pystr) : M (option pystr) :=
  fun w => (Returns (environ w !! name), w).

Definition EOFError : PyExc := mkExc true (lit "EOF when reading a line").

(** [input(prompt)]: writes the prompt, then returns the next line of
    standard input without its newline; [EOFError] at end of input. *)
Definition input (prompt : pystr) : M pystr :=
  fun w =>
    let w1 := emit (Prompt prompt) w in
    match stdin w1 with
    | [] => (Raises EOFError, w1)
    | line :: rest => (Returns line, set_stdin rest w1)
    end.

(** [os.path.exists(path)] *)
Definition path_exists (path : pystr) : M bool :=
  fun w =>
    (Returns (match files w !! path with Some _ => true | None => false end), w).

(** [open(path, "r", encoding="utf-8")] followed by [file.read()] *)
Definition read_text (path : pystr) : M pystr :=
  fun w =>
    match files w !! path with
    | Some (TextFile s) => (Returns s, w)
    | Some (Unreadable e) => (Raises e, w)
    | None => (Raises (mkExc true (lit "No such file or directory")), w)
    end.

(** ** The script *)

Definition BACKGROUND_CONTEXT : pystr :=
  lit "You bring together experiences such as:
- Guiding Stanford's Ethics, Technology, and Public Policy cohort alongside
  Professors Mehran Sahami, Jeremy Weinstein, and Rob Reich
- Examining artificial intelligence and software innovations as a U.S. Patent
  Examiner and GAO technology auditor
- Advising Federal leaders across the White House, OMB, SBA, GSA, and the
  Department of Education on data transparency, emerging technology, and
  digital service delivery
- Championing human-centered design at IDEO and launching civic technology and
  economic development initiatives with governments, nonprofits, and industry
- Supporting academic and civic communities at the University of Pennsylvania,
  University of Michigan, USC, and international forums such as UNICEF USA
Use this lived experience to ground every analysis, highlight ethical and
equity implications, and surface cross-sector collaboration opportunities.".

(** Return a Serper search tool if the API key is available. *)
Definition _maybe_create_serper_tool : M (list Tool) :=
  key <- getenv (lit "SERPER_API_KEY") ;;
  if truthy_opt key then ret [SerperDevTool] else ret [].

Definition research_role : pystr :=
  lit "Ethics and Emerging Technology Research Lead".

Definition research_goal : pystr :=
  lit "Synthesize cross-sector research into AI governance, civic technology,"
  ++ lit " and human-centered innovation so complex topics are ready for policy"
  ++ lit " and design discussions.".

Definition research_backstory : pystr :=
  lit "You guide conversations on technology ethics at Stanford, advise on AI"
  ++ lit " accountability from service at the U.S. Government Accountability Office"
  ++ lit " and the U.S. Patent and Trademark Office, and"
  ++ lit " translate research for public servants, engineers, and designers.".

Definition create_research_agent : M Agent :=
  tools <- _maybe_create_serper_tool ;;
  ret (mkAgent research_role research_goal research_backstory tools true false).

Definition writer_role : pystr := lit "Policy Communicator and Storyteller".

Definition writer_goal : pystr :=
  lit "Transform nuanced research into compelling narratives with"
  ++ lit " clear recommendations for civic leaders, technologists, and academics.".

Definition writer_backstory : pystr :=
  lit "Drawing on experience moderating discussions with global leaders,"
  ++ lit " crafting GAO reports for Congress, and briefing White House stakeholders,"
  ++ lit " you excel at weaving evidence, ethics, and inclusive"
  ++ lit " design into accessible writing.".

Definition create_writer_agent : M Agent :=
  let tools := [FileWriterTool] in
  ret (mkAgent writer_role writer_goal writer_backstory tools true false).

Definition research_description (topic : pystr) : pystr :=
  lit "Investigate the topic: " ++ topic ++ lit "

    Anchor your thinking in the following background:
    " ++ BACKGROUND_CONTEXT ++ lit "

    Focus your review on:
    1. Ethical, societal, and economic implications across government, industry, and civil society
    2. Practical case studies from Federal initiatives, academia, and mission-driven organizations
    3. Key policy, legal, and governance debates shaping the technology's deployment
    4. Opportunities to align innovation with public interest outcomes and inclusive design

    Deliver concise, sourced findings suitable for collaboration with product, policy, and research partners.".

Definition research_expected_output : pystr :=
  lit "A structured research memo that includes:
    - Executive summary highlighting the most relevant developments
    - Table of key benefits, risks, and mitigation strategies
    - Case studies with short annotations on impact and lessons learned
    - Policy or governance considerations with references
    - Bibliography of credible sources consulted".

Definition create_research_task (agent : Agent) (topic : pystr) : M Task :=
  let description := research_description topic in
  let expected_output := research_expected_output in
  ret (mkTask description expected_output agent None false).

Definition writing_description (topic : pystr) : pystr :=
  lit "Using the research findings, craft a policy-oriented article on: "
  ++ topic ++ lit "

    Keep this lived experience in mind while writing:
    " ++ BACKGROUND_CONTEXT ++ lit "

    Requirements:
    1. Open with a concise briefing that situates the issue for technology and policy leaders
    2. Organize sections for context, current state of the field, governance considerations, and future outlook
    3. Showcase real-world examples that resonate with multi-sector stakeholders
    4. Recommend actionable steps for researchers, product teams, and public officials
    5. Save the article to 'article.md' in Markdown format

    Aim for 800-1000 words with clear headings and accessible explanations.
    Maintain a tone that reflects a collaborative civic technologist.".

Definition writing_expected_output : pystr :=
  lit "A Markdown article saved as 'article.md' containing:
    - Briefing-style introduction
    - Thematic sections with descriptive headings
    - Integrated examples and stakeholder perspectives
    - Actionable recommendations and closing reflection
    - Reference list for further reading".

Definition create_writing_task (agent : Agent) (research_task : Task)
    (topic : pystr) : M Task :=
  let description := writing_description topic in
  let expected_output := writing_expected_output in
  ret (mkTask description expected_output agent (Some [research_task]) false).

Definition _print_intro : M unit :=
  print (lit "Welcome") ;;
  print (str_mul (lit "=") 50).

(** [for key in keys: body key] *)
Fixpoint for_each {A} (keys : list A) (body : A -> M unit) : M unit :=
  match keys with
  | [] => ret tt
  | key :: rest => body key ;; for_each rest body
  end.

(** Inform the user if critical API keys are absent. *)
Definition _warn_about_missing_keys : M unit :=
  let missing : list pystr := [] in
  openai <- getenv (lit "OPENAI_API_KEY") ;;
  let missing :=
    if negb (truthy_opt openai) then missing ++ [lit "OPENAI_API_KEY"]
    else missing in
  (if negb (Nat.eqb (length missing) 0) then
     print (lit "Warning: the following environment variables are not set:") ;;
     for_each missing (fun key => print (lit " - " ++ key)) ;;
     print (lit "Set the required keys before running the crew to avoid runtime errors.")
   else ret tt) ;;
  serper <- getenv (lit "SERPER_API_KEY") ;;
  match serper with
  | None =>
      print (lit "Note: SERPER_API_KEY is not configured. Web search will be skipped,"
             ++ lit " but the crew can still operate with available context.")
  | Some _ => ret tt
  end.

Definition DEFAULT_TOPIC : pystr :=
  lit "Public interest safeguards for generative AI systems".

Definition ARTICLE_PATH : pystr := lit "article.md".

(** [main], the topic: read a line, strip it, fall back to the default. *)
Definition main_read_topic : M pystr :=
  line <- input (lit "Enter a topic to explore: ") ;;
  let topic := strip line in
  if negb (truthy topic) then
    let topic := DEFAULT_TOPIC in
    print (lit "No topic provided. Using default: " ++ topic) ;;
    ret topic
  else ret topic.

(** [main], from the topic banner to the [Crew] object. *)
Definition main_build_crew (topic : pystr) : M Crew :=
  print (nl ++ lit "Topic: " ++ topic) ;;
  print (str_mul (lit "=") 50) ;;
  print (nl ++ lit "Configuring agents based on public service and design experience...") ;;
  researcher <- create_research_agent ;;
  writer <- create_writer_agent ;;
  print (lit "Defining tasks aligned to research and storytelling workflows...") ;;
  research_task <- create_research_task researcher topic ;;
  writing_task <- create_writing_task writer research_task topic ;;
  print (nl ++ lit "Launching the sequential crew...") ;;
  ret (mkCrew [researcher; writer] [research_task; writing_task] sequential true).

(** [main], everything before the [try]. *)
Definition main_setup : M Crew :=
  _print_intro ;;
  _warn_about_missing_keys ;;
  topic <- main_read_topic ;;
  main_build_crew topic.

(** [main], the [except Exception as exc] block, which ends in [return]. *)
Definition main_handler (exc : PyExc) : M unit :=
  print (nl ++ lit "Crew execution did not complete successfully.") ;;
  print (lit "Reason: " ++ exc_str exc) ;;
  print (lit "Verify API credentials and network access, then re-run the script.").

(** [main], what follows the [try] when no exception was raised. *)
Definition main_report (final_output : pystr) : M unit :=
  print (nl ++ lit "Crew execution completed successfully.") ;;
  print (str_mul (lit "=") 50) ;;
  print (lit "Final Output:" ++ nl) ;;
  print final_output ;;
  found <- path_exists ARTICLE_PATH ;;
  if found then
    article <- read_text ARTICLE_PATH ;;
    print (nl ++ lit "Article saved to 'article.md'.") ;;
    print (lit "Article length: " ++ str_of_nat (length article) ++ lit " characters")
  else
    print (nl ++ lit "The file 'article.md' was not created. Confirm that the"
           ++ lit " FileWriterTool is configured correctly.").

Section Main.

(** The framework's executor, of which the script knows nothing: run on a
    crew in a world, [crew.kickoff()] returns a final output (here its
    [str]) or raises, and leaves the file system as its tools made it. *)
Variable kickoff : Crew -> World -> Outcome pystr * gmap pystr Node.

Definition crew_kickoff (crew : Crew) : M pystr :=
  fun w =>
    let (r, fs) := kickoff crew w in
    (r, set_files fs (emit (Kickoff crew) w)).

(** Execute the crew with a user-supplied topic. *)
Definition main : M unit :=
  crew <- main_setup ;;
  r <- try_except_Exception (crew_kickoff crew) ;;
  match r with
  | inr exc => main_handler exc
  | inl final_output => main_report final_output
  end.

End Main.

(** ** What a run shows *)

(** The calls of [crew.kickoff()] among the events of a trace. *)
Definition kickoffs (evs : list Event) : list Crew :=
  omap (fun ev => match ev with Kickoff c => Some c | _ => None end) evs.

(** The topic [main] works with, given the line it read. *)
Definition chosen_topic (line : pystr) : pystr :=
  if truthy (strip line) then strip line else DEFAULT_TOPIC.

(** The research agent as built in a world, and the writer agent. *)
Definition researcher_in (w : World) : Agent :=
  mkAgent research_role research_goal research_backstory
    (if truthy_opt (environ w !! lit "SERPER_API_KEY") then [SerperDevTool] else [])
    true false.

Definition the_writer : Agent :=
  mkAgent writer_role writer_goal writer_backstory [FileWriterTool] true false.

Definition research_task_for (researcher : Agent) (topic : pystr) : Task :=
  mkTask (research_description topic) research_expected_output researcher None false.

Definition writing_task_for (writer : Agent) (research_task : Task)
    (topic : pystr) : Task :=
  mkTask (writing_description topic) writing_expected_output writer
    (Some [research_task]) false.

(** What [main] prints once [crew.kickoff()] has returned. *)
Definition success_banner (final_output : pystr) : list Event :=
  [Print (nl ++ lit "Crew execution completed successfully.");
   Print (str_mul (lit "=") 50);
   Print (lit "Final Output:" ++ nl);
   Print final_output].

Definition article_saved (article : pystr) : list Event :=
  [Print (nl ++ lit "Article saved to 'article.md'.");
   Print (lit "Article length: " ++ str_of_nat (length article) ++ lit " characters")].

Definition article_missing : list Event :=
  [Print (nl ++ lit "The file 'article.md' was not created. Confirm that the FileWriterTool is configured correctly.")].

(** What the [except] block prints. *)
Definition failure_report (exc : PyExc) : list Event :=
  [Print (nl ++ lit "Crew execution did not complete successfully.");
   Print (lit "Reason: " ++ exc_str exc);
   Print (lit "Verify API credentials and network access, then re-run the script.")].

Definition SERPER_NOTE : pystr :=
  lit "Note: SERPER_API_KEY is not configured. Web search will be skipped,"
  ++ lit " but the crew can still operate with available context.".

(** The lines [_warn_about_missing_keys] prints about [OPENAI_API_KEY]. *)
Definition OPENAI_WARNING : list Event :=
  [Print (lit "Warning: the following environment variables are not set:");
   Print (lit " - OPENAI_API_KEY");
   Print (lit "Set the required keys before running the crew to avoid runtime errors.")].

(** ** Statements of the specification that fail as they are written *)

(** The tools of the research agent follow the mere presence of
    [SERPER_API_KEY]: the statement that fails on the empty string. *)
Definition research_tools_follow_presence (w : World) : Prop :=
  forall a w', create_research_agent w = (Returns a, w') ->
    (is_Some (environ w !! lit "SERPER_API_KEY") -> In SerperDevTool (tools a))
    /\ (environ w !! lit "SERPER_API_KEY" = None -> tools a = []).

(** The warnings follow the mere absence of each variable: the statement
    that fails on the empty string. *)
Definition warnings_follow_absence (w : World) : Prop :=
  forall w' evs, _warn_about_missing_keys w = (Returns tt, w') ->
    trace w' = trace w ++ evs ->
    (In (Print (lit " - OPENAI_API_KEY")) evs
     <-> environ w !! lit "OPENAI_API_KEY" = None)
    /\ (In (Print SERPER_NOTE) evs
        <-> environ w !! lit "SERPER_API_KEY" = None).

(** Every exception that the executor raises is handled by [main]: the
    statement that fails on an exception that is not an [Exception]. *)
Definition every_raise_is_handled
    (kickoff : Crew -> World -> Outcome pystr * gmap pystr Node)
    (w : World) : Prop :=
  forall crew w1 exc fs,
    main_setup w = (Returns crew, w1) ->
    kickoff crew w1 = (Raises exc, fs) ->
    main kickoff w
    = (Returns tt,
       mkWorld (environ w1) (stdin w1) fs
         (trace w1 ++ Kickoff crew :: failure_report exc)).

(** After a run in which the executor returned, the report of [main]
    follows the mere existence of [article.md]: the statement that fails on
    a file that exists and cannot be read. *)
Definition report_follows_existence_as_claimed
    (kickoff : Crew -> World -> Outcome pystr * gmap pystr Node)
    (w : World) : Prop :=
  forall crew w1 final_output fs,
    main_setup w = (Returns crew, w1) ->
    kickoff crew w1 = (Returns final_output, fs) ->
    let ran := trace w1 ++ Kickoff crew :: success_banner final_output in
    (is_Some (fs !! lit "article.md") ->
     exists article : pystr,
       main kickoff w
       = (Returns tt,
          mkWorld (environ w1) (stdin w1) fs (ran ++ article_saved article)))
    /\ (fs !! lit "article.md" = None ->
        main kickoff w
        = (Returns tt,
           mkWorld (environ w1) (stdin w1) fs (ran ++ article_missing))).

(** ** Concrete worlds and executors *)

Definition world_blank_line : World :=
  mkWorld ∅ [lit "   "] ∅ [].

Definition world_padded_line : World :=
  mkWorld ∅ [lit "  AI audits "; lit "unread"] ∅ [].

Definition world_serper_empty : World :=
  mkWorld {[ lit "SERPER_API_KEY" := [] ]} [] ∅ [].

Definition world_openai_empty : World :=
  mkWorld {[ lit "OPENAI_API_KEY" := [] ]} [] ∅ [].

(** Both keys set, one line on standard input, no file. *)
Definition world_with_topic : World :=
  mkWorld {[ lit "OPENAI_API_KEY" := lit "sk-test";
             lit "SERPER_API_KEY" := lit "serper-test" ]}
    [lit " Data trusts "] ∅ [].

Definition crew_with_topic : Crew :=
  mkCrew [researcher_in world_with_topic; the_writer]
    [research_task_for (researcher_in world_with_topic) (lit "Data trusts");
     writing_task_for the_writer
       (research_task_for (researcher_in world_with_topic) (lit "Data trusts"))
       (lit "Data trusts")]
    sequential true.

Definition world_after_setup : World :=
  mkWorld (environ world_with_topic) [] ∅
    [Print (lit "Welcome");
     Print (lit "==================================================");
     Prompt (lit "Enter a topic to explore: ");
     Print (nl ++ lit "Topic: Data trusts");
     Print (lit "==================================================");
     Print (nl ++ lit "Configuring agents based on public service and design experience...");
     Print (lit "Defining tasks aligned to research and storytelling workflows...");
     Print (nl ++ lit "Launching the sequential crew...")].

(** An executor that fails on a refused connection. *)
Definition connection_refused : PyExc := mkExc true (lit "Connection refused").

Definition kickoff_refused (crew : Crew) (w : World)
    : Outcome pystr * gmap pystr Node :=
  (Raises connection_refused, files w).

(** An executor interrupted from the keyboard. *)
Definition KeyboardInterrupt : PyExc := mkExc false [].

Definition kickoff_interrupted (crew : Crew) (w : World)
    : Outcome pystr * gmap pystr Node :=
  (Raises KeyboardInterrupt, files w).

(** An executor whose writer saves a short article. *)
Definition kickoff_writes (crew : Crew) (w : World)
    : Outcome pystr * gmap pystr Node :=
  (Returns (lit "Article written."),
   <[ ARTICLE_PATH := TextFile (lit "# Data trusts" ++ nl) ]> (files w)).

(** An executor that returns without touching the file system. *)
Definition kickoff_idle (crew : Crew) (w : World)
    : Outcome pystr * gmap pystr Node :=
  (Returns (lit "Nothing written."), files w).

(** ** The order of a run *)

(** What [main] prints before it asks for the topic: the welcome banner of
    [_print_intro], then the warnings of [_warn_about_missing_keys]. *)
Definition greeting_events (w : World) : list Event :=
  [Print (lit "Welcome"); Print (str_mul (lit "=") 50)]
  ++ (if truthy_opt (environ w !! lit "OPENAI_API_KEY") then []
      else OPENAI_WARNING)
  ++ (match environ w !! lit "SERPER_API_KEY" with
      | None => [Print SERPER_NOTE]
      | Some _ => []
      end).

(** What [main] writes from the prompt to the call of the executor, given
    the line it reads. *)
Definition topic_events (line : pystr) : list Event :=
  [Prompt (lit "Enter a topic to explore: ")]
  ++ (if truthy (strip line) then []
      else [Print (lit "No topic provided. Using default: " ++ DEFAULT_TOPIC)])
  ++ [Print (nl ++ lit "Topic: " ++ chosen_topic line);
      Print (str_mul (lit "=") 50);
      Print (nl ++ lit "Configuring agents based on public service and design experience...");
      Print (lit "Defining tasks aligned to research and storytelling workflows...");
      Print (nl ++ lit "Launching the sequential crew...")].

(** The crew [main] builds in a world for a line. *)
Definition crew_for (w : World) (line : pystr) : Crew :=
  mkCrew [researcher_in w; the_writer]
    [research_task_for (researcher_in w) (chosen_topic line);
     writing_task_for the_writer
       (research_task_for (researcher_in w) (chosen_topic line))
       (chosen_topic line)]
    sequential true.

(** The world in which [main] calls the executor, having read [line]. *)
Definition world_at_kickoff (w : World) (line : pystr) (rest : list pystr)
    : World :=
  mkWorld (environ w) rest (files w)
    (trace w ++ greeting_events w ++ topic_events line).

(** Nothing set, nothing on standard input. *)
Definition world_at_eof : World := mkWorld ∅ [] ∅ [].

(** An executor whose tool leaves an [article.md] that does not decode. *)
Definition UnicodeDecodeError : PyExc :=
  mkExc true (lit "'utf-8' codec can't decode byte 0xff in position 0: invalid start byte").

Definition kickoff_spoils (crew : Crew) (w : World)
    : Outcome pystr * gmap pystr Node :=
  (Returns (lit "Article written."),
   <[ ARTICLE_PATH := Unreadable UnicodeDecodeError ]> (files w)).

(** * Properties *)

Arguments lit : simpl never.
Arguments str_mul : simpl never.
Arguments str_of_nat : simpl never.

(** ** [str.strip] *)

Lemma lstrip_decomp (s : pystr) :
  exists a, s = a ++ lstrip s /\ forallb isspace a = true.
Proof.
  induction s as [|c r [a [Hr Ha]]]; simpl.
  - exists []. split; reflexivity.
  - destruct (isspace c) eqn:Hc.
    + exists (c :: a). simpl. rewrite Hc, Ha. split; [congruence | reflexivity].
    + exists []. split; reflexivity.
Qed.

Lemma lstrip_head (s : pystr) (c : N) (r : pystr) :
  lstrip s = c :: r -> isspace c = false.
Proof.
  induction s as [|d t IH]; simpl; [discriminate |].
  destruct (isspace d) eqn:Hd; [exact IH |].
  intros [= -> _]. exact Hd.
Qed.

Lemma lstrip_nil (s : pystr) : lstrip s = [] <-> forallb isspace s = true.
Proof.
  induction s as [|c r IH]; simpl; [tauto |].
  destruct (isspace c); simpl; [exact IH |].
  split; discriminate.
Qed.

Lemma forallb_rev (f : N -> bool) (s : pystr) :
  forallb f (rev s) = forallb f s.
Proof.
  induction s as [|c r IH]; simpl; [reflexivity |].
  rewrite forallb_app, IH. simpl. rewrite andb_true_r. apply andb_comm.
Qed.

Lemma rstrip_nil (s : pystr) : rstrip s = [] <-> forallb isspace s = true.
Proof.
  unfold rstrip. rewrite <- (forallb_rev isspace s), <- lstrip_nil.
  split; intros H.
  - apply (f_equal (@rev N)) in H. rewrite rev_involutive in H. exact H.
  - rewrite H. reflexivity.
Qed.

Lemma rstrip_decomp (s : pystr) :
  exists b, s = rstrip s ++ b /\ forallb isspace b = true.
Proof.
  destruct (lstrip_decomp (rev s)) as [a [Hs Ha]].
  exists (rev a). split.
  - unfold rstrip. rewrite <- rev_app_distr, <- Hs, rev_involutive. reflexivity.
  - rewrite forallb_rev. exact Ha.
Qed.

(** The stripped string is empty exactly when the string is blank: empty,
    or made of whitespace only. *)
Lemma strip_nil (s : pystr) : strip s = [] <-> forallb isspace s = true.
Proof.
  unfold strip. rewrite rstrip_nil. split; intros H.
  - destruct (lstrip s) as [|c r] eqn:E; [apply lstrip_nil; exact E |].
    apply lstrip_head in E. simpl in H. rewrite E in H. discriminate.
  - apply lstrip_nil in H. rewrite H. reflexivity.
Qed.

(** What [strip] removes is whitespace on either side, and nothing else. *)
Lemma strip_decomp (s : pystr) :
  exists a b, s = a ++ strip s ++ b
              /\ forallb isspace a = true /\ forallb isspace b = true.
Proof.
  destruct (lstrip_decomp s) as [a [Hs Ha]].
  destruct (rstrip_decomp (lstrip s)) as [b [Hl Hb]].
  exists a, b. unfold strip. rewrite <- Hl. auto.
Qed.

Lemma truthy_nil (s : pystr) : truthy s = false <-> s = [].
Proof. destruct s; simpl; split; congruence. Qed.

(** ** Running the script's blocks *)

Lemma kickoffs_app (evs evs' : list Event) :
  kickoffs (evs ++ evs') = kickoffs evs ++ kickoffs evs'.
Proof. apply omap_app. Qed.

(** ** The topic *)

(** C1. In [main], the default topic replaces the line read from standard
    input exactly when the stripped line is empty, that is when the line is
    empty or whitespace only; the replacement is announced by a printed
    line.  For any other line the stripped line itself is the topic, and
    nothing is announced. *)
Theorem main_default_topic_iff_blank (w : World) (line : pystr) (rest : list pystr) :
  stdin w = line :: rest ->
  let prompted := set_stdin rest (emit (Prompt (lit "Enter a topic to explore: ")) w) in
  let announce := Print (lit "No topic provided. Using default: " ++ DEFAULT_TOPIC) in
  (strip line = [] <-> forallb isspace line = true)
  /\ (strip line = [] ->
      main_read_topic w = (Returns DEFAULT_TOPIC, emit announce prompted))
  /\ (strip line <> [] ->
      main_read_topic w = (Returns (strip line), prompted)).
Proof.
  intros Hin prompted announce. split; [apply strip_nil |].
  unfold main_read_topic, bind, input. simpl. rewrite Hin.
  split; intros H.
  - rewrite H. reflexivity.
  - destruct (strip line) as [|c r] eqn:E; [congruence | reflexivity].
Qed.

Lemma main_default_topic_iff_blank_witness :
  main_read_topic world_blank_line
  = (Returns DEFAULT_TOPIC,
     mkWorld ∅ [] ∅
       [Prompt (lit "Enter a topic to explore: ");
        Print (lit "No topic provided. Using default: Public interest safeguards for generative AI systems")])
  /\ main_read_topic world_padded_line
     = (Returns (lit "AI audits"),
        mkWorld ∅ [lit "unread"] ∅ [Prompt (lit "Enter a topic to explore: ")]).
Proof.
  split.
  - apply (main_default_topic_iff_blank world_blank_line (lit "   ") []);
      reflexivity.
  - apply (main_default_topic_iff_blank world_padded_line
             (lit "  AI audits ") [lit "unread"]);
      [reflexivity | discriminate].
Defined.

(** ** The environment variables *)

Lemma _maybe_create_serper_tool_run (w : World) :
  _maybe_create_serper_tool w
  = (Returns (if truthy_opt (environ w !! lit "SERPER_API_KEY")
              then [SerperDevTool] else []), w).
Proof.
  unfold _maybe_create_serper_tool, bind, getenv.
  destruct (truthy_opt _); reflexivity.
Qed.

Lemma create_research_agent_run (w : World) :
  create_research_agent w
  = (Returns (mkAgent research_role research_goal research_backstory
                (if truthy_opt (environ w !! lit "SERPER_API_KEY")
                 then [SerperDevTool] else [])
                true false), w).
Proof.
  unfold create_research_agent, bind.
  rewrite _maybe_create_serper_tool_run. reflexivity.
Qed.

Lemma _warn_about_missing_keys_run (w : World) :
  _warn_about_missing_keys w
  = (Returns tt,
     mkWorld (environ w) (stdin w) (files w)
       (trace w
        ++ (if truthy_opt (environ w !! lit "OPENAI_API_KEY") then []
            else OPENAI_WARNING)
        ++ (match environ w !! lit "SERPER_API_KEY" with
            | None => [Print SERPER_NOTE]
            | Some _ => []
            end))).
Proof.
  unfold _warn_about_missing_keys, bind, getenv, print, emit, ret.
  destruct (truthy_opt (environ w !! lit "OPENAI_API_KEY")); simpl;
    destruct (environ w !! lit "SERPER_API_KEY"); simpl;
    rewrite <- ?app_assoc, ?app_nil_r; try reflexivity.
  destruct w; reflexivity.
Qed.

(** Two events that print different literal lines are different. *)
Ltac differ H := vm_compute in H; discriminate H.

(** C2, as stated, fails where [SERPER_API_KEY] is set to the empty string:
    the variable is set, and the research agent has no tool. *)
Lemma research_tools_follow_presence_fails :
  ~ research_tools_follow_presence world_serper_empty.
Proof.
  intros H.
  destruct (H _ _ (create_research_agent_run world_serper_empty)) as [Hset _].
  assert (Hs : is_Some (environ world_serper_empty !! lit "SERPER_API_KEY"))
    by (exists []; reflexivity).
  apply Hset in Hs. vm_compute in Hs. exact Hs.
Qed.

(** C2, amended. For every environment, the tools of the research agent are
    the one-element list holding the web-search tool when [SERPER_API_KEY]
    is set to a non-empty string, and the empty list when it is unset or set
    to the empty string. *)
Theorem research_tools_follow_serper_key (w : World) :
  exists a, create_research_agent w = (Returns a, w)
    /\ ((exists v, environ w !! lit "SERPER_API_KEY" = Some v /\ v <> []) ->
        tools a = [SerperDevTool])
    /\ (environ w !! lit "SERPER_API_KEY" = None
        \/ environ w !! lit "SERPER_API_KEY" = Some [] ->
        tools a = []).
Proof.
  eexists. split; [apply create_research_agent_run |]. cbn [tools]. split.
  - intros [v [-> Hv]]. destruct v; [congruence | reflexivity].
  - intros [-> | ->]; reflexivity.
Qed.

(** C3, as stated, fails where [OPENAI_API_KEY] is set to the empty string:
    the variable is set, and its warning line is printed. *)
Lemma warnings_follow_absence_fails :
  ~ warnings_follow_absence world_openai_empty.
Proof.
  intros H.
  destruct (H _ (OPENAI_WARNING ++ [Print SERPER_NOTE])
              (_warn_about_missing_keys_run world_openai_empty) eq_refl)
    as [[Hopenai _] _].
  assert (Hin : In (Print (lit " - OPENAI_API_KEY"))
                  (OPENAI_WARNING ++ [Print SERPER_NOTE]))
    by (right; left; reflexivity).
  apply Hopenai in Hin. vm_compute in Hin. discriminate Hin.
Qed.

(** C3, amended. For every environment [_warn_about_missing_keys] prints,
    in this order: the three-line warning naming [OPENAI_API_KEY] exactly
    when that variable is unset or set to the empty string, and the note
    about [SERPER_API_KEY] exactly when that variable is unset.  It prints
    nothing else, changes nothing else, and returns. *)
Theorem warnings_follow_keys (w : World) :
  exists evs,
    _warn_about_missing_keys w
    = (Returns tt, mkWorld (environ w) (stdin w) (files w) (trace w ++ evs))
    /\ evs = (if truthy_opt (environ w !! lit "OPENAI_API_KEY") then []
              else OPENAI_WARNING)
             ++ (match environ w !! lit "SERPER_API_KEY" with
                 | None => [Print SERPER_NOTE]
                 | Some _ => []
                 end)
    /\ (In (Print (lit " - OPENAI_API_KEY")) evs
        <-> environ w !! lit "OPENAI_API_KEY" = None
            \/ environ w !! lit "OPENAI_API_KEY" = Some [])
    /\ (In (Print SERPER_NOTE) evs
        <-> environ w !! lit "SERPER_API_KEY" = None).
Proof.
  eexists. split; [apply _warn_about_missing_keys_run |].
  split; [reflexivity |].
  destruct (environ w !! lit "OPENAI_API_KEY") as [[|c v]|];
    destruct (environ w !! lit "SERPER_API_KEY") as [s|]; simpl;
    repeat split; intros; try tauto; try discriminate;
    repeat match goal with
           | H : _ \/ _ |- _ => destruct H
           | H : False |- _ => destruct H
           | H : Print _ = Print _ |- _ => differ H
           end; try discriminate; auto 6.
Qed.

(** C8. Where [SERPER_API_KEY] is set to the empty string, the research
    agent gets no web-search tool (the tool is created on the truth value of
    the variable), and yet [_warn_about_missing_keys] does not print the
    note that the variable is not configured (the note is printed on
    [is None]): the two checks disagree there. *)
Theorem serper_checks_disagree_on_empty (w : World) :
  environ w !! lit "SERPER_API_KEY" = Some [] ->
  (exists a, create_research_agent w = (Returns a, w) /\ tools a = [])
  /\ (exists evs,
        _warn_about_missing_keys w
        = (Returns tt, mkWorld (environ w) (stdin w) (files w) (trace w ++ evs))
        /\ ~ In (Print SERPER_NOTE) evs).
Proof.
  intros Hkey. split.
  - eexists. split; [apply create_research_agent_run |].
    cbn [tools]. rewrite Hkey. reflexivity.
  - eexists. split; [apply _warn_about_missing_keys_run |].
    rewrite Hkey, app_nil_r.
    destruct (truthy_opt _); simpl; [tauto |].
    intros [H | [H | [H | []]]]; differ H.
Qed.

Lemma serper_checks_disagree_on_empty_witness :
  (exists a, create_research_agent world_serper_empty
             = (Returns a, world_serper_empty) /\ tools a = [])
  /\ (exists evs,
        _warn_about_missing_keys world_serper_empty
        = (Returns tt, mkWorld {[ lit "SERPER_API_KEY" := [] ]} [] ∅ ([] ++ evs))
        /\ ~ In (Print SERPER_NOTE) evs).
Proof.
  apply (serper_checks_disagree_on_empty world_serper_empty). reflexivity.
Defined.

(** ** The factories *)

Lemma create_writer_agent_run (w : World) :
  create_writer_agent w
  = (Returns (mkAgent writer_role writer_goal writer_backstory
                [FileWriterTool] true false), w).
Proof. reflexivity. Qed.

(** C9. For every environment the writer agent that [create_writer_agent]
    returns has the tools list [[FileWriterTool()]]: the same agent comes
    out of any two worlds, whatever their environment variables. *)
Theorem writer_tools_unconditional (w : World) :
  (exists a, create_writer_agent w = (Returns a, w)
             /\ tools a = [FileWriterTool])
  /\ (forall w', fst (create_writer_agent w') = fst (create_writer_agent w)).
Proof.
  split; [| reflexivity].
  eexists. split; [apply create_writer_agent_run | reflexivity].
Qed.

(** C6. The factories build objects that carry the configuration strings of
    the source as they are written there: each agent its role, goal and
    backstory (the adjacent literals of the source joined), each task its
    description (the text of the source's template around the topic, with
    the background text in its place) and its expected output.  Every
    string is written out here as it stands in the source. *)
Theorem factories_carry_literals (w : World) (a : Agent) (t : Task) (topic : pystr) :
  (exists r, create_research_agent w = (Returns r, w)
     /\ role r = lit "Ethics and Emerging Technology Research Lead"
     /\ goal r = lit "Synthesize cross-sector research into AI governance, civic technology, and human-centered innovation so complex topics are ready for policy and design discussions."
     /\ backstory r = lit "You guide conversations on technology ethics at Stanford, advise on AI accountability from service at the U.S. Government Accountability Office and the U.S. Patent and Trademark Office, and translate research for public servants, engineers, and designers.")
  /\ (exists r, create_writer_agent w = (Returns r, w)
     /\ role r = lit "Policy Communicator and Storyteller"
     /\ goal r = lit "Transform nuanced research into compelling narratives with clear recommendations for civic leaders, technologists, and academics."
     /\ backstory r = lit "Drawing on experience moderating discussions with global leaders, crafting GAO reports for Congress, and briefing White House stakeholders, you excel at weaving evidence, ethics, and inclusive design into accessible writing.")
  /\ (exists r, create_research_task a topic w = (Returns r, w)
     /\ description r
        = lit "Investigate the topic: " ++ topic ++ lit "

    Anchor your thinking in the following background:
    You bring together experiences such as:
- Guiding Stanford's Ethics, Technology, and Public Policy cohort alongside
  Professors Mehran Sahami, Jeremy Weinstein, and Rob Reich
- Examining artificial intelligence and software innovations as a U.S. Patent
  Examiner and GAO technology auditor
- Advising Federal leaders across the White House, OMB, SBA, GSA, and the
  Department of Education on data transparency, emerging technology, and
  digital service delivery
- Championing human-centered design at IDEO and launching civic technology and
  economic development initiatives with governments, nonprofits, and industry
- Supporting academic and civic communities at the University of Pennsylvania,
  University of Michigan, USC, and international forums such as UNICEF USA
Use this lived experience to ground every analysis, highlight ethical and
equity implications, and surface cross-sector collaboration opportunities.

    Focus your review on:
    1. Ethical, societal, and economic implications across government, industry, and civil society
    2. Practical case studies from Federal initiatives, academia, and mission-driven organizations
    3. Key policy, legal, and governance debates shaping the technology's deployment
    4. Opportunities to align innovation with public interest outcomes and inclusive design

    Deliver concise, sourced findings suitable for collaboration with product, policy, and research partners."
     /\ expected_output r
        = lit "A structured research memo that includes:
    - Executive summary highlighting the most relevant developments
    - Table of key benefits, risks, and mitigation strategies
    - Case studies with short annotations on impact and lessons learned
    - Policy or governance considerations with references
    - Bibliography of credible sources consulted"
     /\ agent r = a)
  /\ (exists r, create_writing_task a t topic w = (Returns r, w)
     /\ description r
        = lit "Using the research findings, craft a policy-oriented article on: " ++ topic ++ lit "

    Keep this lived experience in mind while writing:
    You bring together experiences such as:
- Guiding Stanford's Ethics, Technology, and Public Policy cohort alongside
  Professors Mehran Sahami, Jeremy Weinstein, and Rob Reich
- Examining artificial intelligence and software innovations as a U.S. Patent
  Examiner and GAO technology auditor
- Advising Federal leaders across the White House, OMB, SBA, GSA, and the
  Department of Education on data transparency, emerging technology, and
  digital service delivery
- Championing human-centered design at IDEO and launching civic technology and
  economic development initiatives with governments, nonprofits, and industry
- Supporting academic and civic communities at the University of Pennsylvania,
  University of Michigan, USC, and international forums such as UNICEF USA
Use this lived experience to ground every analysis, highlight ethical and
equity implications, and surface cross-sector collaboration opportunities.

    Requirements:
    1. Open with a concise briefing that situates the issue for technology and policy leaders
    2. Organize sections for context, current state of the field, governance considerations, and future outlook
    3. Showcase real-world examples that resonate with multi-sector stakeholders
    4. Recommend actionable steps for researchers, product teams, and public officials
    5. Save the article to 'article.md' in Markdown format

    Aim for 800-1000 words with clear headings and accessible explanations.
    Maintain a tone that reflects a collaborative civic technologist."
     /\ expected_output r
        = lit "A Markdown article saved as 'article.md' containing:
    - Briefing-style introduction
    - Thematic sections with descriptive headings
    - Integrated examples and stakeholder perspectives
    - Actionable recommendations and closing reflection
    - Reference list for further reading"
     /\ agent r = a).
Proof.
  split; [| split; [| split]].
  - eexists. split; [apply create_research_agent_run |].
    cbn [role goal backstory]. repeat split; vm_compute; reflexivity.
  - eexists. split; [apply create_writer_agent_run |].
    cbn [role goal backstory]. repeat split; vm_compute; reflexivity.
  - eexists. split; [reflexivity |].
    cbn [description expected_output agent].
    split; [| split; [vm_compute; reflexivity | reflexivity]].
    unfold research_description. do 2 f_equal; try (vm_compute; reflexivity).
  - eexists. split; [reflexivity |].
    cbn [description expected_output agent].
    split; [| split; [vm_compute; reflexivity | reflexivity]].
    unfold writing_description. do 2 f_equal; try (vm_compute; reflexivity).
Qed.

(** C10. For every topic, the description of the research task and the
    description of the writing task each contain the topic as it is, the
    description of the research task contains the background text as it
    is, and both tasks are built with [async_execution=False]. *)
Theorem descriptions_contain_topic (w : World) (a : Agent) (t : Task) (topic : pystr) :
  (exists r, create_research_task a topic w = (Returns r, w)
     /\ substring topic (description r)
     /\ substring BACKGROUND_CONTEXT (description r)
     /\ async_execution r = false)
  /\ (exists r, create_writing_task a t topic w = (Returns r, w)
     /\ substring topic (description r)
     /\ async_execution r = false).
Proof.
  split.
  - eexists. split; [reflexivity |]. cbn [description async_execution].
    unfold research_description. split; [| split; [| reflexivity]].
    + match goal with
      | |- substring _ (?pre ++ _ ++ ?post) => exists pre, post; reflexivity
      end.
    + match goal with
      | |- substring _ (?p ++ ?q ++ ?r ++ _ ++ ?post) =>
          exists (p ++ q ++ r), post; rewrite <- !app_assoc; reflexivity
      end.
  - eexists. split; [reflexivity |]. cbn [description async_execution].
    unfold writing_description. split; [| reflexivity].
    match goal with
    | |- substring _ (?pre ++ _ ++ ?post) => exists pre, post; reflexivity
    end.
Qed.

(** ** Running [main] *)

Lemma main_read_topic_run (w : World) (line : pystr) (rest : list pystr) :
  stdin w = line :: rest ->
  main_read_topic w
  = (Returns (chosen_topic line),
     mkWorld (environ w) rest (files w)
       (trace w ++ Prompt (lit "Enter a topic to explore: ")
        :: (if truthy (strip line) then []
            else [Print (lit "No topic provided. Using default: " ++ DEFAULT_TOPIC)]))).
Proof.
  intros Hin. unfold main_read_topic, chosen_topic, bind, input. simpl.
  rewrite Hin. destruct (truthy (strip line)); simpl.
  - reflexivity.
  - unfold emit, set_stdin. simpl. rewrite <- app_assoc. reflexivity.
Qed.

Lemma main_build_crew_run (topic : pystr) (w : World) :
  exists evs,
    main_build_crew topic w
    = (Returns (mkCrew [researcher_in w; the_writer]
                  [research_task_for (researcher_in w) topic;
                   writing_task_for the_writer
                     (research_task_for (researcher_in w) topic) topic]
                  sequential true),
       mkWorld (environ w) (stdin w) (files w) (trace w ++ evs))
    /\ kickoffs evs = [].
Proof.
  unfold main_build_crew, bind, print, emit. simpl.
  rewrite create_research_agent_run. simpl.
  rewrite <- !app_assoc. simpl.
  eexists. split; reflexivity.
Qed.

Lemma main_setup_run (w : World) (line : pystr) (rest : list pystr) :
  stdin w = line :: rest ->
  exists evs,
    main_setup w
    = (Returns (mkCrew [researcher_in w; the_writer]
                  [research_task_for (researcher_in w) (chosen_topic line);
                   writing_task_for the_writer
                     (research_task_for (researcher_in w) (chosen_topic line))
                     (chosen_topic line)]
                  sequential true),
       mkWorld (environ w) rest (files w) (trace w ++ evs))
    /\ kickoffs evs = [].
Proof.
  intros Hin. unfold main_setup, bind at 1. simpl.
  unfold bind at 1. rewrite _warn_about_missing_keys_run. simpl.
  unfold bind at 1. erewrite main_read_topic_run by exact Hin.
  match goal with
  | |- context [main_build_crew ?t ?w1] =>
      destruct (main_build_crew_run t w1) as [evs [Hrun Hk]]
  end.
  rewrite Hrun. simpl. rewrite <- !app_assoc.
  eexists. split; [reflexivity |].
  unfold kickoffs in *. rewrite !omap_app, Hk.
  destruct (truthy_opt (environ w !! lit "OPENAI_API_KEY"));
    destruct (environ w !! lit "SERPER_API_KEY");
    destruct (truthy (strip line)); reflexivity.
Qed.

Lemma main_setup_eof (w : World) :
  stdin w = [] -> exists w', main_setup w = (Raises EOFError, w').
Proof.
  intros Hin. unfold main_setup, bind at 1. simpl.
  unfold bind at 1. rewrite _warn_about_missing_keys_run. simpl.
  unfold bind at 1, main_read_topic, bind at 1, input. simpl.
  rewrite Hin. eexists. reflexivity.
Qed.

(** [main] gets past its setup only with a line on standard input; the
    setup calls the executor not once, and leaves the environment and the
    file system as they were. *)
Lemma main_setup_returns (w w1 : World) (crew : Crew) :
  main_setup w = (Returns crew, w1) ->
  exists line rest evs,
    stdin w = line :: rest
    /\ crew = mkCrew [researcher_in w; the_writer]
                [research_task_for (researcher_in w) (chosen_topic line);
                 writing_task_for the_writer
                   (research_task_for (researcher_in w) (chosen_topic line))
                   (chosen_topic line)]
                sequential true
    /\ w1 = mkWorld (environ w) rest (files w) (trace w ++ evs)
    /\ kickoffs evs = [].
Proof.
  intros Hrun. destruct (stdin w) as [|line rest] eqn:Hin.
  - destruct (main_setup_eof w Hin) as [w' Heof]. congruence.
  - destruct (main_setup_run w line rest Hin) as [evs [Hrun' Hk]].
    rewrite Hrun' in Hrun. injection Hrun as <- <-.
    exists line, rest, evs. auto.
Qed.

Lemma main_report_run (final_output : pystr) (w : World) :
  main_report final_output w
  = match files w !! ARTICLE_PATH with
    | None =>
        (Returns tt,
         mkWorld (environ w) (stdin w) (files w)
           (trace w ++ success_banner final_output ++ article_missing))
    | Some (TextFile article) =>
        (Returns tt,
         mkWorld (environ w) (stdin w) (files w)
           (trace w ++ success_banner final_output ++ article_saved article))
    | Some (Unreadable e) =>
        (Raises e,
         mkWorld (environ w) (stdin w) (files w)
           (trace w ++ success_banner final_output))
    end.
Proof.
  unfold main_report, bind, print, path_exists, read_text, emit.
  cbn [environ stdin files trace].
  destruct (files w !! ARTICLE_PATH) as [[article | e] |] eqn:E;
    cbn [environ stdin files trace]; rewrite ?E;
    cbn [environ stdin files trace]; rewrite <- !app_assoc;
    reflexivity.
Qed.

Lemma main_handler_run (exc : PyExc) (w : World) :
  main_handler exc w
  = (Returns tt,
     mkWorld (environ w) (stdin w) (files w) (trace w ++ failure_report exc)).
Proof.
  unfold main_handler, bind, print, emit. simpl.
  rewrite <- !app_assoc. reflexivity.
Qed.

Section MainProperties.

Variable kickoff : Crew -> World -> Outcome pystr * gmap pystr Node.

Lemma main_run (w w1 : World) (crew : Crew) :
  main_setup w = (Returns crew, w1) ->
  main kickoff w
  = match kickoff crew w1 with
    | (Returns final_output, fs) =>
        main_report final_output
          (mkWorld (environ w1) (stdin w1) fs (trace w1 ++ [Kickoff crew]))
    | (Raises exc, fs) =>
        if exc_is_Exception exc then
          main_handler exc
            (mkWorld (environ w1) (stdin w1) fs (trace w1 ++ [Kickoff crew]))
        else
          (Raises exc,
           mkWorld (environ w1) (stdin w1) fs (trace w1 ++ [Kickoff crew]))
    end.
Proof.
  intros Hsetup. unfold main, bind at 1. rewrite Hsetup.
  unfold bind, try_except_Exception, crew_kickoff.
  destruct (kickoff crew w1) as [[final_output | exc] fs]; simpl.
  - reflexivity.
  - destruct (exc_is_Exception exc); reflexivity.
Qed.

(** Whatever the executor does, [main] calls it once after its setup. *)
Lemma main_kickoffs (w w1 : World) (crew : Crew) :
  main_setup w = (Returns crew, w1) ->
  kickoffs (trace (snd (main kickoff w))) = kickoffs (trace w1) ++ [crew].
Proof.
  intros Hsetup. rewrite (main_run w w1 crew Hsetup).
  destruct (kickoff crew w1) as [[final_output | exc] fs].
  - rewrite main_report_run. cbn [files].
    destruct (fs !! ARTICLE_PATH) as [[article | e] |];
      cbn [snd trace]; rewrite !kickoffs_app, ?app_nil_r; reflexivity.
  - destruct (exc_is_Exception exc).
    + rewrite main_handler_run. cbn [snd trace].
      rewrite !kickoffs_app, ?app_nil_r. reflexivity.
    + cbn [snd trace]. rewrite kickoffs_app. reflexivity.
Qed.

(** An exception that is not an [Exception] (a [KeyboardInterrupt], a
    [SystemExit]) is not caught: it leaves [main], and nothing is printed
    after the call. *)
Lemma main_base_exception_propagates (w w1 : World) (crew : Crew)
    (exc : PyExc) (fs : gmap pystr Node) :
  main_setup w = (Returns crew, w1) ->
  kickoff crew w1 = (Raises exc, fs) ->
  exc_is_Exception exc = false ->
  main kickoff w
  = (Raises exc,
     mkWorld (environ w1) (stdin w1) fs (trace w1 ++ [Kickoff crew])).
Proof.
  intros Hsetup Hk Hexc. rewrite (main_run w w1 crew Hsetup), Hk, Hexc.
  reflexivity.
Qed.

(** Where [article.md] exists and cannot be read as UTF-8 text, the
    exception of the read leaves [main] before either message. *)
Lemma main_article_unreadable (w w1 : World) (crew : Crew)
    (final_output : pystr) (fs : gmap pystr Node) (e : PyExc) :
  main_setup w = (Returns crew, w1) ->
  kickoff crew w1 = (Returns final_output, fs) ->
  fs !! ARTICLE_PATH = Some (Unreadable e) ->
  main kickoff w
  = (Raises e,
     mkWorld (environ w1) (stdin w1) fs
       (trace w1 ++ Kickoff crew :: success_banner final_output)).
Proof.
  intros Hsetup Hk Hfile. rewrite (main_run w w1 crew Hsetup), Hk.
  rewrite main_report_run. cbn [environ stdin files trace].
  rewrite Hfile, <- app_assoc. reflexivity.
Qed.

(** At end of input [main] stops with [EOFError] before any call of the
    executor. *)
Lemma main_eof (w : World) :
  stdin w = [] -> exists w', main kickoff w = (Raises EOFError, w').
Proof.
  intros Hin. destruct (main_setup_eof w Hin) as [w' Heof].
  exists w'. unfold main, bind. rewrite Heof. reflexivity.
Qed.

(** ** The failure path *)

(** C4, amended. Every exception raised by [crew.kickoff()] that is an
    instance of [Exception] is caught by the single handler of [main]: it
    prints that the run did not complete, the message of the exception and
    the hint to verify credentials and network access, and returns.
    Nothing follows the hint: the final output is not printed and
    [article.md] is not looked at; and the executor was called once in the
    whole run, so the pipeline is not retried. *)
Theorem kickoff_exception_handled (w w1 : World) (crew : Crew)
    (exc : PyExc) (fs : gmap pystr Node) :
  main_setup w = (Returns crew, w1) ->
  kickoff crew w1 = (Raises exc, fs) ->
  exc_is_Exception exc = true ->
  main kickoff w
  = (Returns tt,
     mkWorld (environ w1) (stdin w1) fs
       (trace w1 ++ Kickoff crew :: failure_report exc))
  /\ failure_report exc
     = [Print (nl ++ lit "Crew execution did not complete successfully.");
        Print (lit "Reason: " ++ exc_str exc);
        Print (lit "Verify API credentials and network access, then re-run the script.")]
  /\ kickoffs (trace (snd (main kickoff w))) = kickoffs (trace w) ++ [crew].
Proof.
  intros Hsetup Hk Hexc. split; [| split; [reflexivity |]].
  - rewrite (main_run w w1 crew Hsetup), Hk, Hexc, main_handler_run.
    cbn [environ stdin files trace]. rewrite <- app_assoc. reflexivity.
  - rewrite (main_kickoffs w w1 crew Hsetup).
    destruct (main_setup_returns w w1 crew Hsetup)
      as [line [rest [evs [_ [_ [-> Hevs]]]]]].
    cbn [trace]. rewrite kickoffs_app, Hevs, app_nil_r. reflexivity.
Qed.

(** ** The success path *)

(** C5, amended. After a run in which [crew.kickoff()] returned, [main]
    prints the success banner and the final output and then exactly one of
    two reports, chosen by whether [article.md] exists: if it does not, the
    line saying that the file was not created; if it does and its contents
    can be read as UTF-8 text, [article], the line saying that the article
    was saved and the line giving [len(article)], its length in
    characters.  In both cases [main] returns. *)
Theorem article_report_follows_existence (w w1 : World) (crew : Crew)
    (final_output : pystr) (fs : gmap pystr Node) :
  main_setup w = (Returns crew, w1) ->
  kickoff crew w1 = (Returns final_output, fs) ->
  let ran := trace w1 ++ Kickoff crew :: success_banner final_output in
  (fs !! lit "article.md" = None ->
   main kickoff w
   = (Returns tt,
      mkWorld (environ w1) (stdin w1) fs
        (ran ++ [Print (nl ++ lit "The file 'article.md' was not created. Confirm that the FileWriterTool is configured correctly.")])))
  /\ (forall article : pystr,
        fs !! lit "article.md" = Some (TextFile article) ->
        main kickoff w
        = (Returns tt,
           mkWorld (environ w1) (stdin w1) fs
             (ran ++ [Print (nl ++ lit "Article saved to 'article.md'.");
                      Print (lit "Article length: "
                             ++ str_of_nat (length article)
                             ++ lit " characters")]))).
Proof.
  intros Hsetup Hk ran. subst ran.
  rewrite (main_run w w1 crew Hsetup), Hk, main_report_run.
  cbn [environ stdin files trace].
  change ARTICLE_PATH with (lit "article.md"). split.
  - intros ->. rewrite <- !app_assoc. reflexivity.
  - intros article ->. rewrite <- !app_assoc. reflexivity.
Qed.

(** ** The crew *)

(** C7. Whatever line [main] reads, and so for every topic, it calls the
    executor once, on a crew whose tasks are the research task and the
    writing task for that topic, in this order, under the sequential
    process; the context of the writing task is the list of the research
    task alone.  The same holds of the crew built for any topic at all. *)
Theorem main_hands_two_tasks (w : World) (line : pystr) (rest : list pystr)
    (topic : pystr) (w0 : World) :
  stdin w = line :: rest ->
  (exists crew research_task writing_task,
     kickoffs (trace (snd (main kickoff w))) = kickoffs (trace w) ++ [crew]
     /\ tasks crew = [research_task; writing_task]
     /\ process crew = sequential
     /\ create_research_task (researcher_in w) (chosen_topic line) w
        = (Returns research_task, w)
     /\ create_writing_task the_writer research_task (chosen_topic line) w
        = (Returns writing_task, w)
     /\ context writing_task = Some [research_task])
  /\ (exists crew w0' research_task writing_task,
        main_build_crew topic w0 = (Returns crew, w0')
        /\ tasks crew = [research_task; writing_task]
        /\ process crew = sequential
        /\ description research_task = research_description topic
        /\ description writing_task = writing_description topic
        /\ context writing_task = Some [research_task]).
Proof.
  intros Hin. split.
  - destruct (main_setup_run w line rest Hin) as [evs [Hsetup Hevs]].
    eexists _, _, _. split.
    + rewrite (main_kickoffs _ _ _ Hsetup). cbn [trace].
      rewrite kickoffs_app, Hevs, app_nil_r. reflexivity.
    + cbn [tasks process]. repeat split.
  - destruct (main_build_crew_run topic w0) as [evs [Hrun _]].
    eexists _, _, _, _. split; [exact Hrun |].
    cbn [tasks process]. repeat split.
Qed.

End MainProperties.

(** ** Runs of [main] on concrete worlds *)

Lemma main_setup_with_topic :
  main_setup world_with_topic = (Returns crew_with_topic, world_after_setup).
Proof. vm_compute. reflexivity. Qed.

(** C4, as stated, fails on an executor that raises [KeyboardInterrupt]:
    the handler names [Exception], the exception leaves [main], and neither
    its message nor the hint is printed. *)
Lemma every_raise_is_handled_fails :
  ~ every_raise_is_handled kickoff_interrupted world_with_topic.
Proof.
  intros H.
  specialize (H crew_with_topic world_after_setup KeyboardInterrupt ∅
                main_setup_with_topic eq_refl).
  rewrite (main_base_exception_propagates kickoff_interrupted
             world_with_topic world_after_setup crew_with_topic
             KeyboardInterrupt ∅ main_setup_with_topic eq_refl eq_refl) in H.
  discriminate H.
Qed.

Lemma kickoff_exception_handled_witness :
  main kickoff_refused world_with_topic
  = (Returns tt,
     mkWorld (environ world_with_topic) [] ∅
       (trace world_after_setup
        ++ [Kickoff crew_with_topic;
            Print (nl ++ lit "Crew execution did not complete successfully.");
            Print (lit "Reason: Connection refused");
            Print (lit "Verify API credentials and network access, then re-run the script.")]))
  /\ kickoffs (trace (snd (main kickoff_refused world_with_topic)))
     = [crew_with_topic].
Proof.
  destruct (kickoff_exception_handled kickoff_refused world_with_topic
              world_after_setup crew_with_topic connection_refused ∅
              main_setup_with_topic eq_refl eq_refl) as [Hrun [_ Hcalls]].
  split; [exact Hrun | exact Hcalls].
Defined.

(** C5, as stated, fails on an executor that leaves an [article.md] which
    does not decode as UTF-8: the file exists, the read raises, and [main]
    prints neither that the article was saved nor that it was not
    created. *)
Lemma report_follows_existence_as_claimed_fails :
  ~ report_follows_existence_as_claimed kickoff_spoils world_with_topic.
Proof.
  intros H.
  destruct (H crew_with_topic world_after_setup (lit "Article written.")
              {[ ARTICLE_PATH := Unreadable UnicodeDecodeError ]}
              main_setup_with_topic eq_refl) as [Hexists _].
  destruct Hexists as [article Hrun].
  - exists (Unreadable UnicodeDecodeError). reflexivity.
  - rewrite (main_article_unreadable kickoff_spoils world_with_topic
               world_after_setup crew_with_topic (lit "Article written.")
               {[ ARTICLE_PATH := Unreadable UnicodeDecodeError ]}
               UnicodeDecodeError main_setup_with_topic eq_refl
               (lookup_singleton_eq _ _)) in Hrun.
    discriminate Hrun.
Qed.

Lemma article_report_follows_existence_witness :
  main kickoff_idle world_with_topic
  = (Returns tt,
     mkWorld (environ world_with_topic) [] ∅
       ((trace world_after_setup
         ++ Kickoff crew_with_topic :: success_banner (lit "Nothing written."))
        ++ [Print (nl ++ lit "The file 'article.md' was not created. Confirm that the FileWriterTool is configured correctly.")]))
  /\ main kickoff_writes world_with_topic
     = (Returns tt,
        mkWorld (environ world_with_topic) []
          {[ ARTICLE_PATH := TextFile (lit "# Data trusts" ++ nl) ]}
          ((trace world_after_setup
            ++ Kickoff crew_with_topic :: success_banner (lit "Article written."))
           ++ [Print (nl ++ lit "Article saved to 'article.md'.");
               Print (lit "Article length: 14 characters")])).
Proof.
  split.
  - apply (proj1 (article_report_follows_existence kickoff_idle
                    world_with_topic world_after_setup crew_with_topic
                    (lit "Nothing written.") ∅
                    main_setup_with_topic eq_refl)).
    reflexivity.
  - apply (proj2 (article_report_follows_existence kickoff_writes
                    world_with_topic world_after_setup crew_with_topic
                    (lit "Article written.")
                    {[ ARTICLE_PATH := TextFile (lit "# Data trusts" ++ nl) ]}
                    main_setup_with_topic eq_refl)
             (lit "# Data trusts" ++ nl)).
    reflexivity.
Defined.

Lemma main_hands_two_tasks_witness :
  exists crew research_task writing_task,
    kickoffs (trace (snd (main kickoff_writes world_with_topic))) = [crew]
    /\ tasks crew = [research_task; writing_task]
    /\ process crew = sequential
    /\ create_research_task (researcher_in world_with_topic)
         (chosen_topic (lit " Data trusts ")) world_with_topic
       = (Returns research_task, world_with_topic)
    /\ create_writing_task the_writer research_task
         (chosen_topic (lit " Data trusts ")) world_with_topic
       = (Returns writing_task, world_with_topic)
    /\ context writing_task = Some [research_task].
Proof.
  apply (main_hands_two_tasks kickoff_writes world_with_topic
           (lit " Data trusts ") [] DEFAULT_TOPIC world_blank_line eq_refl).
Defined.

(** * Further properties of the script *)

(** ** The topic is never blank *)

Lemma head_rev (s : pystr) : head (rev s) = last s.
Proof.
  induction s as [|c r IH] using rev_ind; [reflexivity |].
  rewrite rev_app_distr, last_snoc. reflexivity.
Qed.

Lemma last_rev (s : pystr) : last (rev s) = head s.
Proof. rewrite <- (rev_involutive s) at 2. symmetry. apply head_rev. Qed.

Lemma lstrip_fixed (s : pystr) :
  (forall c, head s = Some c -> isspace c = false) -> lstrip s = s.
Proof.
  destruct s as [|c r]; [reflexivity |].
  intros H. simpl. rewrite (H c eq_refl). reflexivity.
Qed.

Lemma rstrip_fixed (s : pystr) :
  (forall c, last s = Some c -> isspace c = false) -> rstrip s = s.
Proof.
  intros H. unfold rstrip. rewrite lstrip_fixed.
  - apply rev_involutive.
  - intros c Hc. apply H. rewrite <- head_rev. exact Hc.
Qed.

Lemma rstrip_last (s : pystr) (c : N) :
  last (rstrip s) = Some c -> isspace c = false.
Proof.
  unfold rstrip. rewrite last_rev.
  destruct (lstrip (rev s)) as [|d r] eqn:E; [discriminate |].
  intros [= ->]. exact (lstrip_head _ _ _ E).
Qed.

Lemma strip_head (s : pystr) (c : N) :
  head (strip s) = Some c -> isspace c = false.
Proof.
  unfold strip. destruct (rstrip_decomp (lstrip s)) as [b [Hb _]].
  destruct (rstrip (lstrip s)) as [|d r]; [discriminate |].
  intros [= ->]. exact (lstrip_head _ _ _ Hb).
Qed.

Lemma strip_last (s : pystr) (c : N) :
  last (strip s) = Some c -> isspace c = false.
Proof. apply rstrip_last. Qed.

(** Stripping a stripped string changes nothing. *)
Lemma strip_strip (s : pystr) : strip (strip s) = strip s.
Proof.
  unfold strip at 1. rewrite (lstrip_fixed (strip s)) by apply strip_head.
  apply rstrip_fixed, strip_last.
Qed.

Lemma main_read_topic_returns (w w' : World) (topic : pystr) :
  main_read_topic w = (Returns topic, w') ->
  exists line rest, stdin w = line :: rest /\ topic = chosen_topic line.
Proof.
  intros Hrun. destruct (stdin w) as [|line rest] eqn:Hin.
  - unfold main_read_topic, bind, input in Hrun.
    cbn [emit stdin] in Hrun. rewrite Hin in Hrun. discriminate Hrun.
  - rewrite (main_read_topic_run w line rest Hin) in Hrun.
    injection Hrun as <- _. exists line, rest. auto.
Qed.

Lemma chosen_topic_not_blank (line : pystr) :
  chosen_topic line <> []
  /\ (forall c, head (chosen_topic line) = Some c -> isspace c = false)
  /\ (forall c, last (chosen_topic line) = Some c -> isspace c = false).
Proof.
  unfold chosen_topic. destruct (truthy (strip line)) eqn:E.
  - split; [| split].
    + intros H. rewrite H in E. discriminate E.
    + apply strip_head.
    + apply strip_last.
  - split; [discriminate | split; intros c [= <-]; reflexivity].
Qed.

(** X1. The topic [main] settles on is never blank: whatever the line read,
    it is not empty and it neither begins nor ends with a whitespace
    character. *)
Theorem main_topic_never_blank (w w' : World) (topic : pystr) :
  main_read_topic w = (Returns topic, w') ->
  topic <> []
  /\ (forall c, head topic = Some c -> isspace c = false)
  /\ (forall c, last topic = Some c -> isspace c = false).
Proof.
  intros Hrun.
  destruct (main_read_topic_returns w w' topic Hrun) as [line [rest [_ ->]]].
  apply chosen_topic_not_blank.
Qed.

Lemma main_topic_never_blank_witness :
  lit "AI audits" <> []
  /\ (forall c, head (lit "AI audits") = Some c -> isspace c = false)
  /\ (forall c, last (lit "AI audits") = Some c -> isspace c = false).
Proof.
  apply (main_topic_never_blank world_padded_line
           (mkWorld ∅ [lit "unread"] ∅ [Prompt (lit "Enter a topic to explore: ")])
           (lit "AI audits")).
  reflexivity.
Defined.

(** X2. The topic of a run is stable under re-entry: a line that is the
    topic [main] settled on in some run is taken as it is, without the
    announcement of the default. *)
Theorem main_topic_reentry (w w' w2 : World) (topic : pystr) (rest : list pystr) :
  main_read_topic w = (Returns topic, w') ->
  stdin w2 = topic :: rest ->
  main_read_topic w2
  = (Returns topic,
     mkWorld (environ w2) rest (files w2)
       (trace w2 ++ [Prompt (lit "Enter a topic to explore: ")])).
Proof.
  intros Hrun Hin.
  destruct (main_read_topic_returns w w' topic Hrun) as [line [rest0 [_ ->]]].
  destruct (chosen_topic_not_blank line) as [Hne [Hhead Hlast]].
  rewrite (main_read_topic_run w2 _ rest Hin).
  assert (Hfix : strip (chosen_topic line) = chosen_topic line).
  { unfold strip. rewrite (lstrip_fixed _ Hhead). apply rstrip_fixed, Hlast. }
  unfold chosen_topic at 1. rewrite Hfix.
  destruct (chosen_topic line) as [|c r]; [congruence | reflexivity].
Qed.

Lemma main_topic_reentry_witness :
  main_read_topic (mkWorld ∅ [DEFAULT_TOPIC] ∅ [])
  = (Returns DEFAULT_TOPIC,
     mkWorld ∅ [] ∅ [Prompt (lit "Enter a topic to explore: ")]).
Proof.
  apply (main_topic_reentry world_blank_line
           (mkWorld ∅ [] ∅
              [Prompt (lit "Enter a topic to explore: ");
               Print (lit "No topic provided. Using default: " ++ DEFAULT_TOPIC)])
           (mkWorld ∅ [DEFAULT_TOPIC] ∅ []) DEFAULT_TOPIC []);
    reflexivity.
Defined.

(** ** The order of a run *)

Lemma main_build_crew_trace (topic : pystr) (w : World) :
  main_build_crew topic w
  = (Returns (mkCrew [researcher_in w; the_writer]
                [research_task_for (researcher_in w) topic;
                 writing_task_for the_writer
                   (research_task_for (researcher_in w) topic) topic]
                sequential true),
     mkWorld (environ w) (stdin w) (files w)
       (trace w
        ++ [Print (nl ++ lit "Topic: " ++ topic);
            Print (str_mul (lit "=") 50);
            Print (nl ++ lit "Configuring agents based on public service and design experience...");
            Print (lit "Defining tasks aligned to research and storytelling workflows...");
            Print (nl ++ lit "Launching the sequential crew...")])).
Proof.
  unfold main_build_crew, bind, print, emit.
  cbn [environ stdin files trace].
  rewrite create_research_agent_run. cbn [environ stdin files trace].
  rewrite create_writer_agent_run.
  unfold create_research_task, create_writing_task, ret.
  cbn [environ stdin files trace]. rewrite <- !app_assoc. reflexivity.
Qed.

Lemma main_setup_trace (w : World) (line : pystr) (rest : list pystr) :
  stdin w = line :: rest ->
  main_setup w
  = (Returns (crew_for w line),
     mkWorld (environ w) rest (files w)
       (trace w ++ greeting_events w ++ topic_events line)).
Proof.
  intros Hin. unfold main_setup, bind at 1.
  unfold _print_intro, bind at 1, print, emit.
  cbn [environ stdin files trace].
  unfold bind at 1. rewrite _warn_about_missing_keys_run.
  cbn [environ stdin files trace].
  unfold bind at 1. erewrite main_read_topic_run by exact Hin.
  rewrite main_build_crew_trace. cbn [environ stdin files trace].
  unfold greeting_events, topic_events, crew_for.
  rewrite <- !app_assoc. reflexivity.
Qed.

Section MainBehaviour.

Variable kickoff : Crew -> World -> Outcome pystr * gmap pystr Node.

Lemma main_setup_at_kickoff (w : World) (line : pystr) (rest : list pystr) :
  stdin w = line :: rest ->
  main_setup w = (Returns (crew_for w line), world_at_kickoff w line rest).
Proof. apply main_setup_trace. Qed.

Lemma main_setup_eof_trace (w : World) :
  stdin w = [] ->
  main_setup w
  = (Raises EOFError,
     mkWorld (environ w) [] (files w)
       (trace w ++ greeting_events w
        ++ [Prompt (lit "Enter a topic to explore: ")])).
Proof.
  intros Hin. unfold main_setup, bind at 1.
  unfold _print_intro, bind at 1, print, emit.
  cbn [environ stdin files trace].
  unfold bind at 1. rewrite _warn_about_missing_keys_run.
  cbn [environ stdin files trace].
  unfold bind at 1, main_read_topic, bind at 1, input, emit.
  cbn [environ stdin files trace]. rewrite Hin.
  unfold greeting_events. rewrite <- !app_assoc. reflexivity.
Qed.


(** X4. At end of input [main] stops with [EOFError] raised by [input]:
    the banner, the warnings and the prompt are written, no topic line is
    printed and the executor is not called. *)
Theorem main_eof_before_kickoff (w : World) :
  stdin w = [] ->
  main kickoff w
  = (Raises EOFError,
     mkWorld (environ w) [] (files w)
       (trace w ++ greeting_events w
        ++ [Prompt (lit "Enter a topic to explore: ")]))
  /\ kickoffs (trace (snd (main kickoff w))) = kickoffs (trace w).
Proof.
  intros Hin.
  assert (Hrun : main kickoff w
                 = (Raises EOFError,
                    mkWorld (environ w) [] (files w)
                      (trace w ++ greeting_events w
                       ++ [Prompt (lit "Enter a topic to explore: ")]))).
  { unfold main, bind. rewrite (main_setup_eof_trace w Hin). reflexivity. }
  split; [exact Hrun |]. rewrite Hrun. cbn [snd trace].
  rewrite !kickoffs_app, app_nil_r.
  unfold greeting_events, OPENAI_WARNING.
  destruct (truthy_opt _); destruct (environ w !! lit "SERPER_API_KEY");
    cbn; rewrite ?app_nil_r; reflexivity.
Qed.

(** X5. An exception raised by [crew.kickoff()] whose class does not
    derive from [Exception] leaves [main] as it is: after the call nothing
    is printed, neither the reason nor the hint. *)
Theorem kickoff_base_exception_leaves_main (w : World) (line : pystr)
    (rest : list pystr) (exc : PyExc) (fs : gmap pystr Node) :
  stdin w = line :: rest ->
  kickoff (crew_for w line) (world_at_kickoff w line rest) = (Raises exc, fs) ->
  exc_is_Exception exc = false ->
  main kickoff w
  = (Raises exc,
     mkWorld (environ w) rest fs
       (trace (world_at_kickoff w line rest) ++ [Kickoff (crew_for w line)])).
Proof.
  intros Hin Hk Hexc.
  rewrite (main_run kickoff w _ _ (main_setup_at_kickoff w line rest Hin)).
  rewrite Hk, Hexc. reflexivity.
Qed.

(** X6. Where the executor returned and [article.md] exists but cannot be
    read as UTF-8 text, the exception of the read leaves [main]: the
    success banner and the final output are printed, and neither the
    saved-article lines nor the not-created line. *)
Theorem unreadable_article_leaves_main (w : World) (line : pystr)
    (rest : list pystr) (final_output : pystr) (fs : gmap pystr Node)
    (e : PyExc) :
  stdin w = line :: rest ->
  kickoff (crew_for w line) (world_at_kickoff w line rest)
  = (Returns final_output, fs) ->
  fs !! ARTICLE_PATH = Some (Unreadable e) ->
  main kickoff w
  = (Raises e,
     mkWorld (environ w) rest fs
       (trace (world_at_kickoff w line rest)
        ++ Kickoff (crew_for w line) :: success_banner final_output)).
Proof.
  intros Hin Hk Hfile.
  rewrite (main_run kickoff w _ _ (main_setup_at_kickoff w line rest Hin)).
  rewrite Hk, main_report_run. cbn [environ stdin files trace].
  rewrite Hfile, <- app_assoc. reflexivity.
Qed.


Lemma kickoffs_before_call (w : World) (line : pystr) :
  kickoffs (greeting_events w ++ topic_events line) = [].
Proof.
  unfold greeting_events, topic_events, OPENAI_WARNING.
  destruct (truthy_opt _); destruct (environ w !! lit "SERPER_API_KEY");
    destruct (truthy (strip line)); reflexivity.
Qed.

(** X8. The crew [main] hands to the executor is closed under assignment:
    its agents are the agents of its two tasks, in the order of the tasks.
    The writing task, which is told to save the article, goes to the agent
    that holds the file-writing tool; the research task goes to an agent
    that does not hold it, and the search tool is never given to the
    writer.  Neither agent may delegate. *)
Theorem main_assigns_tasks_to_crew_agents (w : World) (line : pystr)
    (rest : list pystr) :
  stdin w = line :: rest ->
  exists crew research_task writing_task,
    kickoffs (trace (snd (main kickoff w))) = kickoffs (trace w) ++ [crew]
    /\ tasks crew = [research_task; writing_task]
    /\ agents crew = [agent research_task; agent writing_task]
    /\ In FileWriterTool (tools (agent writing_task))
    /\ ~ In FileWriterTool (tools (agent research_task))
    /\ ~ In SerperDevTool (tools (agent writing_task))
    /\ allow_delegation (agent research_task) = false
    /\ allow_delegation (agent writing_task) = false.
Proof.
  intros Hin.
  exists (crew_for w line),
    (research_task_for (researcher_in w) (chosen_topic line)),
    (writing_task_for the_writer
       (research_task_for (researcher_in w) (chosen_topic line))
       (chosen_topic line)).
  split.
  - rewrite (main_kickoffs kickoff w _ _ (main_setup_at_kickoff w line rest Hin)).
    unfold world_at_kickoff. cbn [trace].
    rewrite kickoffs_app, kickoffs_before_call, app_nil_r. reflexivity.
  - cbn [crew_for tasks agents agent research_task_for writing_task_for
           researcher_in the_writer tools allow_delegation].
    split; [reflexivity |]. split; [reflexivity |].
    split; [left; reflexivity |].
    split; [| split; [| split; reflexivity]].
    + destruct (truthy_opt _);
        [intros [H | H]; [discriminate H | exact H] | intros H; exact H].
    + intros [H | H]; [discriminate H | exact H].
Qed.

End MainBehaviour.

(** ** The note about web search and the search tool *)

(** X9. Except where [SERPER_API_KEY] is set to the empty string, the note
    of [_warn_about_missing_keys] tells the truth about the research
    agent: it is printed exactly when the agent is built without the
    web-search tool. *)
Theorem serper_note_matches_tool (w : World) :
  environ w !! lit "SERPER_API_KEY" <> Some [] ->
  exists a evs,
    create_research_agent w = (Returns a, w)
    /\ _warn_about_missing_keys w
       = (Returns tt, mkWorld (environ w) (stdin w) (files w) (trace w ++ evs))
    /\ (In (Print SERPER_NOTE) evs <-> tools a = []).
Proof.
  intros Hkey. eexists _, _.
  split; [apply create_research_agent_run |].
  split; [apply _warn_about_missing_keys_run |].
  cbn [tools].
  destruct (environ w !! lit "SERPER_API_KEY") as [[|c v] |];
    [congruence | |]; cbn [truthy_opt truthy].
  - rewrite app_nil_r. split; [| discriminate].
    destruct (truthy_opt _); [intros [] |].
    intros [H | [H | [H | []]]]; differ H.
  - split; [reflexivity |]. intros _. apply in_or_app. right. left. reflexivity.
Qed.

(** ** The task descriptions *)

(** X10. A task description determines its topic: two research tasks, or
    two writing tasks, built for different topics have different
    descriptions. *)
Theorem task_description_determines_topic (w : World) (a : Agent) (t : Task)
    (topic1 topic2 : pystr) :
  (forall r1 r2,
     create_research_task a topic1 w = (Returns r1, w) ->
     create_research_task a topic2 w = (Returns r2, w) ->
     description r1 = description r2 -> topic1 = topic2)
  /\ (forall r1 r2,
        create_writing_task a t topic1 w = (Returns r1, w) ->
        create_writing_task a t topic2 w = (Returns r2, w) ->
        description r1 = description r2 -> topic1 = topic2).
Proof.
  split; intros r1 r2 [= <-] [= <-]; cbn [description];
    [unfold research_description | unfold writing_description];
    intros H; apply app_inv_head in H; apply app_inv_tail in H; exact H.
Qed.

(** X11. The writing task names the file that [main] checks afterwards:
    for every topic both its description and its expected output contain
    the path [article.md] that [main] tests and reads once the executor has
    returned; its description also contains the background text as it
    is. *)
Theorem writing_task_names_checked_file (w : World) (a : Agent) (t : Task)
    (topic : pystr) :
  exists r, create_writing_task a t topic w = (Returns r, w)
    /\ substring ARTICLE_PATH (description r)
    /\ substring ARTICLE_PATH (expected_output r)
    /\ substring BACKGROUND_CONTEXT (description r).
Proof.
  eexists. split; [reflexivity |]. cbn [description expected_output].
  unfold writing_description. split; [| split].
  - match goal with
    | |- substring _ (?p ++ ?q ++ ?r ++ ?bg ++ ?c) =>
        exists (p ++ q ++ r ++ bg ++ firstn 422 c), (skipn 432 c)
    end.
    rewrite <- !app_assoc. do 4 f_equal; try (vm_compute; reflexivity).
  - exists (firstn 29 writing_expected_output),
      (skipn 39 writing_expected_output).
    vm_compute. reflexivity.
  - match goal with
    | |- substring _ (?p ++ ?q ++ ?r ++ _ ++ ?post) =>
        exists (p ++ q ++ r), post; rewrite <- !app_assoc; reflexivity
    end.
Qed.

(** ** Runs of [main] on further worlds *)


Lemma main_eof_before_kickoff_witness :
  main kickoff_idle world_at_eof
  = (Raises EOFError,
     mkWorld ∅ [] ∅
       [Print (lit "Welcome");
        Print (lit "==================================================");
        Print (lit "Warning: the following environment variables are not set:");
        Print (lit " - OPENAI_API_KEY");
        Print (lit "Set the required keys before running the crew to avoid runtime errors.");
        Print (lit "Note: SERPER_API_KEY is not configured. Web search will be skipped, but the crew can still operate with available context.");
        Prompt (lit "Enter a topic to explore: ")])
  /\ kickoffs (trace (snd (main kickoff_idle world_at_eof))) = [].
Proof.
  exact (main_eof_before_kickoff kickoff_idle world_at_eof eq_refl).
Defined.

Lemma kickoff_base_exception_leaves_main_witness :
  main kickoff_interrupted world_with_topic
  = (Raises KeyboardInterrupt,
     mkWorld (environ world_with_topic) [] ∅
       (trace world_after_setup ++ [Kickoff crew_with_topic])).
Proof.
  exact (kickoff_base_exception_leaves_main kickoff_interrupted
           world_with_topic (lit " Data trusts ") [] KeyboardInterrupt ∅
           eq_refl eq_refl eq_refl).
Defined.

Lemma unreadable_article_leaves_main_witness :
  main kickoff_spoils world_with_topic
  = (Raises UnicodeDecodeError,
     mkWorld (environ world_with_topic) []
       {[ ARTICLE_PATH := Unreadable UnicodeDecodeError ]}
       (trace world_after_setup
        ++ Kickoff crew_with_topic :: success_banner (lit "Article written."))).
Proof.
  exact (unreadable_article_leaves_main kickoff_spoils world_with_topic
           (lit " Data trusts ") [] (lit "Article written.")
           {[ ARTICLE_PATH := Unreadable UnicodeDecodeError ]}
           UnicodeDecodeError eq_refl eq_refl eq_refl).
Defined.

Lemma main_assigns_tasks_to_crew_agents_witness :
  exists crew research_task writing_task,
    kickoffs (trace (snd (main kickoff_refused world_with_topic))) = [crew]
    /\ tasks crew = [research_task; writing_task]
    /\ agents crew = [agent research_task; agent writing_task]
    /\ In FileWriterTool (tools (agent writing_task))
    /\ ~ In FileWriterTool (tools (agent research_task))
    /\ ~ In SerperDevTool (tools (agent writing_task))
    /\ allow_delegation (agent research_task) = false
    /\ allow_delegation (agent writing_task) = false.
Proof.
  exact (main_assigns_tasks_to_crew_agents kickoff_refused world_with_topic
           (lit " Data trusts ") [] eq_refl).
Defined.

Lemma serper_note_matches_tool_witness :
  exists a evs,
    create_research_agent world_at_eof = (Returns a, world_at_eof)
    /\ _warn_about_missing_keys world_at_eof
       = (Returns tt, mkWorld ∅ [] ∅ ([] ++ evs))
    /\ (In (Print SERPER_NOTE) evs <-> tools a = []).
Proof.
  apply (serper_note_matches_tool world_at_eof).
  intros H. vm_compute in H. discriminate H.
Defined.
